(** * layers/enums.go: protocol enumerations and their metadata

    A shallow embedding of [src/layers/enums.go] of gopacket: the protocol
    code constants, the per-family [EnumMetadata] variables, the forwarding
    methods [Decode], [String] and [LayerType] of every enumeration type,
    [Dot11Type.MainType], [errorFunc], [decodeIPv4or6] and [init].

    Conventions.
    - A [uint8] or [uint16] value is an [N]; the operations of this file
      ([&] with a mask, [>>]) never leave the width, so no wrap-around is
      written out.
    - A [[]byte] is a [list byte].
    - A Go [error] is [option string]: [None] is [nil], [Some msg] an error
      whose [Error()] text is [msg].
    - A call either returns or raises a run-time panic ([outcome]).
    - The package-level variables are the fields of one record [Globals],
      threaded explicitly. *)

From Stdlib Require Import NArith List String Ascii Bool DecimalString Lia.
From Stdlib Require DecimalPos DecimalN.
From Stdlib.Strings Require Import Byte.
Import ListNotations.

Local Open Scope N_scope.
Local Open Scope string_scope.

(** ** Machine integers and strings *)

Definition uint8 : Type := N.
Definition uint16 : Type := N.

(** [fmt]'s [%v] verb on an unsigned integer: its decimal digits. *)
Definition fmt_v (n : N) : string := NilZero.string_of_uint (N.to_uint n).

(** [strings.Contains s sub]. *)
Fixpoint contains (s sub : string) : bool :=
  prefix sub s ||
  match s with
  | EmptyString => false
  | String _ t => contains t sub
  end.

(** ** Outcomes of a call *)

Inductive runtimePanic : Type :=
| NilDereference
| IndexOutOfRange (index len : nat).

Definition error : Type := option string.

Inductive outcome : Type :=
| Return (e : error)
| Panic (r : runtimePanic).

Definition is_error_value (o : outcome) : bool :=
  match o with Return (Some _) => true | _ => false end.

Definition panicked (o : outcome) : bool :=
  match o with Panic _ => true | _ => false end.

(** ** Protocol code constants *)

Definition EthernetType : Type := uint16.

Definition EthernetTypeLLC : EthernetType := 0.
Definition EthernetTypeIPv4 : EthernetType := 0x0800.
Definition EthernetTypeARP : EthernetType := 0x0806.
Definition EthernetTypeIPv6 : EthernetType := 0x86DD.
Definition EthernetTypeCiscoDiscovery : EthernetType := 0x2000.
Definition EthernetTypeNortelDiscovery : EthernetType := 0x01a2.
Definition EthernetTypeTransparentEthernetBridging : EthernetType := 0x6558.
Definition EthernetTypeDot1Q : EthernetType := 0x8100.
Definition EthernetTypePPPoEDiscovery : EthernetType := 0x8863.
Definition EthernetTypePPPoESession : EthernetType := 0x8864.
Definition EthernetTypeMPLSUnicast : EthernetType := 0x8847.
Definition EthernetTypeMPLSMulticast : EthernetType := 0x8848.
Definition EthernetTypeEAPOL : EthernetType := 0x888e.
Definition EthernetTypeQinQ : EthernetType := 0x88a8.
Definition EthernetTypeLinkLayerDiscovery : EthernetType := 0x88cc.
Definition EthernetTypeEthernetCTP : EthernetType := 0x9000.

Definition IPProtocol : Type := uint8.

Definition IPProtocolIPv6HopByHop : IPProtocol := 0.
Definition IPProtocolICMPv4 : IPProtocol := 1.
Definition IPProtocolIGMP : IPProtocol := 2.
Definition IPProtocolIPv4 : IPProtocol := 4.
Definition IPProtocolTCP : IPProtocol := 6.
Definition IPProtocolUDP : IPProtocol := 17.
Definition IPProtocolRUDP : IPProtocol := 27.
Definition IPProtocolIPv6 : IPProtocol := 41.
Definition IPProtocolIPv6Routing : IPProtocol := 43.
Definition IPProtocolIPv6Fragment : IPProtocol := 44.
Definition IPProtocolGRE : IPProtocol := 47.
Definition IPProtocolESP : IPProtocol := 50.
Definition IPProtocolAH : IPProtocol := 51.
Definition IPProtocolICMPv6 : IPProtocol := 58.
Definition IPProtocolNoNextHeader : IPProtocol := 59.
Definition IPProtocolIPv6Destination : IPProtocol := 60.
Definition IPProtocolIPIP : IPProtocol := 94.
Definition IPProtocolEtherIP : IPProtocol := 97.
Definition IPProtocolVRRP : IPProtocol := 112.
Definition IPProtocolSCTP : IPProtocol := 132.
Definition IPProtocolUDPLite : IPProtocol := 136.
Definition IPProtocolMPLSInIP : IPProtocol := 137.

Definition LinkType : Type := uint8.

Definition LinkTypeNull : LinkType := 0.
Definition LinkTypeEthernet : LinkType := 1.
Definition LinkTypeTokenRing : LinkType := 6.
Definition LinkTypeArcNet : LinkType := 7.
Definition LinkTypeSLIP : LinkType := 8.
Definition LinkTypePPP : LinkType := 9.
Definition LinkTypeFDDI : LinkType := 10.
Definition LinkTypeATM_RFC1483 : LinkType := 100.
Definition LinkTypeRaw : LinkType := 101.
Definition LinkTypePPP_HDLC : LinkType := 50.
Definition LinkTypePPPEthernet : LinkType := 51.
Definition LinkTypeC_HDLC : LinkType := 104.
Definition LinkTypeIEEE802_11 : LinkType := 105.
Definition LinkTypeFRelay : LinkType := 107.
Definition LinkTypeLoop : LinkType := 108.
Definition LinkTypeLinuxSLL : LinkType := 113.
Definition LinkTypeLTalk : LinkType := 104.
Definition LinkTypePFLog : LinkType := 117.
Definition LinkTypePrismHeader : LinkType := 119.
Definition LinkTypeIPOverFC : LinkType := 122.
Definition LinkTypeSunATM : LinkType := 123.
Definition LinkTypeIEEE80211Radio : LinkType := 127.
Definition LinkTypeARCNetLinux : LinkType := 129.
Definition LinkTypeLinuxIRDA : LinkType := 144.
Definition LinkTypeLinuxLAPD : LinkType := 177.
Definition LinkTypeLinuxUSB : LinkType := 220.
Definition LinkTypeIPv4 : LinkType := 228.
Definition LinkTypeIPv6 : LinkType := 229.

Definition PPPoECode : Type := uint8.

Definition PPPoECodePADI : PPPoECode := 0x09.
Definition PPPoECodePADO : PPPoECode := 0x07.
Definition PPPoECodePADR : PPPoECode := 0x19.
Definition PPPoECodePADS : PPPoECode := 0x65.
Definition PPPoECodePADT : PPPoECode := 0xA7.
Definition PPPoECodeSession : PPPoECode := 0x00.

Definition PPPType : Type := uint16.

Definition PPPTypeIPv4 : PPPType := 0x0021.
Definition PPPTypeIPv6 : PPPType := 0x0057.
Definition PPPTypeMPLSUnicast : PPPType := 0x0281.
Definition PPPTypeMPLSMulticast : PPPType := 0x0283.

Definition SCTPChunkType : Type := uint8.

Definition SCTPChunkTypeData : SCTPChunkType := 0.
Definition SCTPChunkTypeInit : SCTPChunkType := 1.
Definition SCTPChunkTypeInitAck : SCTPChunkType := 2.
Definition SCTPChunkTypeSack : SCTPChunkType := 3.
Definition SCTPChunkTypeHeartbeat : SCTPChunkType := 4.
Definition SCTPChunkTypeHeartbeatAck : SCTPChunkType := 5.
Definition SCTPChunkTypeAbort : SCTPChunkType := 6.
Definition SCTPChunkTypeShutdown : SCTPChunkType := 7.
Definition SCTPChunkTypeShutdownAck : SCTPChunkType := 8.
Definition SCTPChunkTypeError : SCTPChunkType := 9.
Definition SCTPChunkTypeCookieEcho : SCTPChunkType := 10.
Definition SCTPChunkTypeCookieAck : SCTPChunkType := 11.
Definition SCTPChunkTypeShutdownComplete : SCTPChunkType := 14.

Definition FDDIFrameControl : Type := uint8.

Definition FDDIFrameControlLLC : FDDIFrameControl := 0x50.

Definition EAPOLType : Type := uint8.

Definition EAPOLTypeEAP : EAPOLType := 0.
Definition EAPOLTypeStart : EAPOLType := 1.
Definition EAPOLTypeLogOff : EAPOLType := 2.
Definition EAPOLTypeKey : EAPOLType := 3.
Definition EAPOLTypeASFAlert : EAPOLType := 4.

Definition ProtocolFamily : Type := uint8.

Definition ProtocolFamilyIPv4 : ProtocolFamily := 2.
Definition ProtocolFamilyIPv6BSD : ProtocolFamily := 24.
Definition ProtocolFamilyIPv6FreeBSD : ProtocolFamily := 28.
Definition ProtocolFamilyIPv6Darwin : ProtocolFamily := 30.
Definition ProtocolFamilyIPv6Linux : ProtocolFamily := 10.

(** ** 802.11 type and subtype *)

Definition Dot11Type : Type := uint8.

Definition Dot11TypeMgmt : Dot11Type := 0x00.
Definition Dot11TypeCtrl : Dot11Type := 0x01.
Definition Dot11TypeData : Dot11Type := 0x02.
Definition Dot11TypeReserved : Dot11Type := 0x03.
Definition dot11TypeMask : N := 0x03.

Definition Dot11TypeMgmtAssociationReq : Dot11Type := 0x00.
Definition Dot11TypeMgmtAssociationResp : Dot11Type := 0x04.
Definition Dot11TypeMgmtReassociationReq : Dot11Type := 0x08.
Definition Dot11TypeMgmtReassociationResp : Dot11Type := 0x0c.
Definition Dot11TypeMgmtProbeReq : Dot11Type := 0x10.
Definition Dot11TypeMgmtProbeResp : Dot11Type := 0x14.
Definition Dot11TypeMgmtMeasurementPilot : Dot11Type := 0x18.
Definition Dot11TypeMgmtBeacon : Dot11Type := 0x20.
Definition Dot11TypeMgmtATIM : Dot11Type := 0x24.
Definition Dot11TypeMgmtDisassociation : Dot11Type := 0x28.
Definition Dot11TypeMgmtAuthentication : Dot11Type := 0x2c.
Definition Dot11TypeMgmtDeauthentication : Dot11Type := 0x30.
Definition Dot11TypeMgmtAction : Dot11Type := 0x34.
Definition Dot11TypeMgmtActionNoAck : Dot11Type := 0x38.

Definition Dot11TypeCtrlWrapper : Dot11Type := 0x1d.
Definition Dot11TypeCtrlBlockAckReq : Dot11Type := 0x21.
Definition Dot11TypeCtrlBlockAck : Dot11Type := 0x25.
Definition Dot11TypeCtrlPowersavePoll : Dot11Type := 0x29.
Definition Dot11TypeCtrlRTS : Dot11Type := 0x2d.
Definition Dot11TypeCtrlCTS : Dot11Type := 0x31.
Definition Dot11TypeCtrlAck : Dot11Type := 0x35.
Definition Dot11TypeCtrlCFEnd : Dot11Type := 0x39.
Definition Dot11TypeCtrlCFEndAck : Dot11Type := 0x3d.

Definition Dot11TypeDataCFAck : Dot11Type := 0x06.
Definition Dot11TypeDataCFPoll : Dot11Type := 0x0a.
Definition Dot11TypeDataCFAckPoll : Dot11Type := 0x0e.
Definition Dot11TypeDataNull : Dot11Type := 0x12.
Definition Dot11TypeDataCFAckNoData : Dot11Type := 0x16.
Definition Dot11TypeDataCFPollNoData : Dot11Type := 0x1a.
Definition Dot11TypeDataCFAckPollNoData : Dot11Type := 0x1e.
Definition Dot11TypeDataQOSData : Dot11Type := 0x22.
Definition Dot11TypeDataQOSDataCFAck : Dot11Type := 0x26.
Definition Dot11TypeDataQOSDataCFPoll : Dot11Type := 0x2a.
Definition Dot11TypeDataQOSDataCFAckPoll : Dot11Type := 0x2e.
Definition Dot11TypeDataQOSNull : Dot11Type := 0x32.
Definition Dot11TypeDataQOSCFPollNoData : Dot11Type := 0x3a.
Definition Dot11TypeDataQOSCFAckPollNoData : Dot11Type := 0x3e.

(** [func (d Dot11Type) MainType() Dot11Type]: [d & dot11TypeMask]. *)
Definition MainType (d : Dot11Type) : Dot11Type := N.land d dot11TypeMask.

(** The enumeration types of this file that carry forwarding methods. *)
Inductive Family : Type :=
| FEthernetType
| FIPProtocol
| FSCTPChunkType
| FPPPType
| FLinkType
| FPPPoECode
| FFDDIFrameControl
| FEAPOLType
| FProtocolFamily
| FDot11Type.

(** ** The [const] blocks as tables

    Each list holds the named constants of one block, in the order of the
    source; the 802.11 conglomerations are listed under the comment that
    heads them ("Management", "Control", "Data"). *)
Definition EthernetType_constants : list EthernetType :=
  [ EthernetTypeLLC; EthernetTypeIPv4; EthernetTypeARP; EthernetTypeIPv6;
    EthernetTypeCiscoDiscovery; EthernetTypeNortelDiscovery;
    EthernetTypeTransparentEthernetBridging; EthernetTypeDot1Q;
    EthernetTypePPPoEDiscovery; EthernetTypePPPoESession;
    EthernetTypeMPLSUnicast; EthernetTypeMPLSMulticast; EthernetTypeEAPOL;
    EthernetTypeQinQ; EthernetTypeLinkLayerDiscovery;
    EthernetTypeEthernetCTP ].

Definition IPProtocol_constants : list IPProtocol :=
  [ IPProtocolIPv6HopByHop; IPProtocolICMPv4; IPProtocolIGMP; IPProtocolIPv4;
    IPProtocolTCP; IPProtocolUDP; IPProtocolRUDP; IPProtocolIPv6;
    IPProtocolIPv6Routing; IPProtocolIPv6Fragment; IPProtocolGRE;
    IPProtocolESP; IPProtocolAH; IPProtocolICMPv6; IPProtocolNoNextHeader;
    IPProtocolIPv6Destination; IPProtocolIPIP; IPProtocolEtherIP;
    IPProtocolVRRP; IPProtocolSCTP; IPProtocolUDPLite; IPProtocolMPLSInIP ].

Definition LinkType_constants : list LinkType :=
  [ LinkTypeNull; LinkTypeEthernet; LinkTypeTokenRing; LinkTypeArcNet;
    LinkTypeSLIP; LinkTypePPP; LinkTypeFDDI; LinkTypeATM_RFC1483;
    LinkTypeRaw; LinkTypePPP_HDLC; LinkTypePPPEthernet; LinkTypeC_HDLC;
    LinkTypeIEEE802_11; LinkTypeFRelay; LinkTypeLoop; LinkTypeLinuxSLL;
    LinkTypeLTalk; LinkTypePFLog; LinkTypePrismHeader; LinkTypeIPOverFC;
    LinkTypeSunATM; LinkTypeIEEE80211Radio; LinkTypeARCNetLinux;
    LinkTypeLinuxIRDA; LinkTypeLinuxLAPD; LinkTypeLinuxUSB; LinkTypeIPv4;
    LinkTypeIPv6 ].

Definition PPPoECode_constants : list PPPoECode :=
  [ PPPoECodePADI; PPPoECodePADO; PPPoECodePADR; PPPoECodePADS;
    PPPoECodePADT; PPPoECodeSession ].

Definition PPPType_constants : list PPPType :=
  [ PPPTypeIPv4; PPPTypeIPv6; PPPTypeMPLSUnicast; PPPTypeMPLSMulticast ].

Definition SCTPChunkType_constants : list SCTPChunkType :=
  [ SCTPChunkTypeData; SCTPChunkTypeInit; SCTPChunkTypeInitAck;
    SCTPChunkTypeSack; SCTPChunkTypeHeartbeat; SCTPChunkTypeHeartbeatAck;
    SCTPChunkTypeAbort; SCTPChunkTypeShutdown; SCTPChunkTypeShutdownAck;
    SCTPChunkTypeError; SCTPChunkTypeCookieEcho; SCTPChunkTypeCookieAck;
    SCTPChunkTypeShutdownComplete ].

Definition EAPOLType_constants : list EAPOLType :=
  [ EAPOLTypeEAP; EAPOLTypeStart; EAPOLTypeLogOff; EAPOLTypeKey;
    EAPOLTypeASFAlert ].

Definition ProtocolFamily_constants : list ProtocolFamily :=
  [ ProtocolFamilyIPv4; ProtocolFamilyIPv6BSD; ProtocolFamilyIPv6FreeBSD;
    ProtocolFamilyIPv6Darwin; ProtocolFamilyIPv6Linux ].

Definition Dot11TypeMgmt_subtypes : list Dot11Type :=
  [ Dot11TypeMgmtAssociationReq; Dot11TypeMgmtAssociationResp;
    Dot11TypeMgmtReassociationReq; Dot11TypeMgmtReassociationResp;
    Dot11TypeMgmtProbeReq; Dot11TypeMgmtProbeResp;
    Dot11TypeMgmtMeasurementPilot; Dot11TypeMgmtBeacon; Dot11TypeMgmtATIM;
    Dot11TypeMgmtDisassociation; Dot11TypeMgmtAuthentication;
    Dot11TypeMgmtDeauthentication; Dot11TypeMgmtAction;
    Dot11TypeMgmtActionNoAck ].

Definition Dot11TypeCtrl_subtypes : list Dot11Type :=
  [ Dot11TypeCtrlWrapper; Dot11TypeCtrlBlockAckReq; Dot11TypeCtrlBlockAck;
    Dot11TypeCtrlPowersavePoll; Dot11TypeCtrlRTS; Dot11TypeCtrlCTS;
    Dot11TypeCtrlAck; Dot11TypeCtrlCFEnd; Dot11TypeCtrlCFEndAck ].

Definition Dot11TypeData_subtypes : list Dot11Type :=
  [ Dot11TypeDataCFAck; Dot11TypeDataCFPoll; Dot11TypeDataCFAckPoll;
    Dot11TypeDataNull; Dot11TypeDataCFAckNoData; Dot11TypeDataCFPollNoData;
    Dot11TypeDataCFAckPollNoData; Dot11TypeDataQOSData;
    Dot11TypeDataQOSDataCFAck; Dot11TypeDataQOSDataCFPoll;
    Dot11TypeDataQOSDataCFAckPoll; Dot11TypeDataQOSNull;
    Dot11TypeDataQOSCFPollNoData; Dot11TypeDataQOSCFAckPollNoData ].

(** No value occurs twice in a table. *)
Fixpoint distinct (l : list N) : bool :=
  match l with
  | [] => true
  | x :: t => negb (existsb (N.eqb x) t) && distinct t
  end.

(** ** The gopacket package

    [enums.go] imports the root package for [gopacket.Decoder],
    [gopacket.DecodeFunc], [gopacket.PacketBuilder] and
    [gopacket.LayerType], and uses the sibling decoders [decodeIPv4],
    [decodeIPv6], [decodeUDP] and the constants [LayerTypeIPv4],
    [LayerTypeUDP] of package [layers].  None of them is declared in
    [enums.go]; they are the fields of one class, and every definition below
    is parametric in it.

    A decoding routine reads the buffer and mutates the packet builder it is
    handed: here it takes the builder and returns the new one with its
    outcome.  A routine has no access to the metadata variables. *)
Class Gopacket : Type := {
  PacketBuilder : Type;
  gopacket_LayerType : Type;
  (** the zero value of [gopacket.LayerType] *)
  LayerTypeZero : gopacket_LayerType;
  LayerTypeIPv4 : gopacket_LayerType;
  LayerTypeUDP : gopacket_LayerType;
  decodeIPv4 : list byte -> PacketBuilder -> PacketBuilder * outcome;
  decodeIPv6 : list byte -> PacketBuilder -> PacketBuilder * outcome;
  decodeUDP : list byte -> PacketBuilder -> PacketBuilder * outcome
}.

Section Model.
Context {G : Gopacket}.

(** Modelled from the spec: [gopacket.DecodeFunc] and [gopacket.Decoder]
    are declared in the root package, which is not among the sources.  The
    decoder contract is "a routine taking a byte buffer and a mutable
    accumulator, returning success or a typed failure"; a [DecodeFunc] is
    such a routine, and its [Decode] method calls it.

    A routine is here a closed function of the buffer and the builder.  A
    [Decoder] that is itself a code of an enumeration type, or a routine
    that decodes a nested code, reads the metadata variables when it runs;
    such a decoder is not represented, and no statement of this file says
    what a routine does once it is called. *)
Definition DecodeFunc : Type :=
  list byte -> PacketBuilder -> PacketBuilder * outcome.

(** A value of the interface [gopacket.Decoder]; [None] is the nil
    interface, the zero value. *)
Definition Decoder : Type := option DecodeFunc.

(** The method call [d.Decode(data, p)] on an interface value: on nil it is
    a nil dereference. *)
Definition Decoder_Decode (d : Decoder) (data : list byte) (p : PacketBuilder)
  : PacketBuilder * outcome :=
  match d with
  | Some f => f data p
  | None => (p, Panic NilDereference)
  end.

Record EnumMetadata : Type := mkEnumMetadata {
  DecodeWith : Decoder;
  Name : string;
  LayerType : gopacket_LayerType
}.

(** The zero value of the struct. *)
Definition zeroEnumMetadata : EnumMetadata :=
  {| DecodeWith := None; Name := ""; LayerType := LayerTypeZero |}.

(** [errorFunc]: a decoder that returns the error [errors.New(msg)]. *)
Definition errorFunc (msg : string) : Decoder :=
  let e : error := Some msg in
  Some (fun (_ : list byte) (p : PacketBuilder) => (p, Return e)).

(** The [var ( ... )] block: eleven variables, each ONE [EnumMetadata]. *)
Record Globals : Type := mkGlobals {
  EthernetTypeMetadata : EnumMetadata;
  IPProtocolMetadata : EnumMetadata;
  SCTPChunkTypeMetadata : EnumMetadata;
  PPPTypeMetadata : EnumMetadata;
  PPPoECodeMetadata : EnumMetadata;
  LinkTypeMetadata : EnumMetadata;
  FDDIFrameControlMetadata : EnumMetadata;
  EAPOLTypeMetadata : EnumMetadata;
  ProtocolFamilyMetadata : EnumMetadata;
  Dot11TypeMetadata : EnumMetadata;
  USBTypeMetadata : EnumMetadata
}.

(** The variables before any assignment: zero values. *)
Definition zeroGlobals : Globals :=
  {| EthernetTypeMetadata := zeroEnumMetadata;
     IPProtocolMetadata := zeroEnumMetadata;
     SCTPChunkTypeMetadata := zeroEnumMetadata;
     PPPTypeMetadata := zeroEnumMetadata;
     PPPoECodeMetadata := zeroEnumMetadata;
     LinkTypeMetadata := zeroEnumMetadata;
     FDDIFrameControlMetadata := zeroEnumMetadata;
     EAPOLTypeMetadata := zeroEnumMetadata;
     ProtocolFamilyMetadata := zeroEnumMetadata;
     Dot11TypeMetadata := zeroEnumMetadata;
     USBTypeMetadata := zeroEnumMetadata |}.

(** The variable that holds a family's metadata. *)
Definition metadataOf (f : Family) (g : Globals) : EnumMetadata :=
  match f with
  | FEthernetType => EthernetTypeMetadata g
  | FIPProtocol => IPProtocolMetadata g
  | FSCTPChunkType => SCTPChunkTypeMetadata g
  | FPPPType => PPPTypeMetadata g
  | FLinkType => LinkTypeMetadata g
  | FPPPoECode => PPPoECodeMetadata g
  | FFDDIFrameControl => FDDIFrameControlMetadata g
  | FEAPOLType => EAPOLTypeMetadata g
  | FProtocolFamily => ProtocolFamilyMetadata g
  | FDot11Type => Dot11TypeMetadata g
  end.

(** The assignment [<Family>Metadata = r]. *)
Definition assign (f : Family) (r : EnumMetadata) (g : Globals) : Globals :=
  match f with
  | FEthernetType =>
      mkGlobals r (IPProtocolMetadata g) (SCTPChunkTypeMetadata g)
        (PPPTypeMetadata g) (PPPoECodeMetadata g) (LinkTypeMetadata g)
        (FDDIFrameControlMetadata g) (EAPOLTypeMetadata g)
        (ProtocolFamilyMetadata g) (Dot11TypeMetadata g) (USBTypeMetadata g)
  | FIPProtocol =>
      mkGlobals (EthernetTypeMetadata g) r (SCTPChunkTypeMetadata g)
        (PPPTypeMetadata g) (PPPoECodeMetadata g) (LinkTypeMetadata g)
        (FDDIFrameControlMetadata g) (EAPOLTypeMetadata g)
        (ProtocolFamilyMetadata g) (Dot11TypeMetadata g) (USBTypeMetadata g)
  | FSCTPChunkType =>
      mkGlobals (EthernetTypeMetadata g) (IPProtocolMetadata g) r
        (PPPTypeMetadata g) (PPPoECodeMetadata g) (LinkTypeMetadata g)
        (FDDIFrameControlMetadata g) (EAPOLTypeMetadata g)
        (ProtocolFamilyMetadata g) (Dot11TypeMetadata g) (USBTypeMetadata g)
  | FPPPType =>
      mkGlobals (EthernetTypeMetadata g) (IPProtocolMetadata g)
        (SCTPChunkTypeMetadata g) r (PPPoECodeMetadata g) (LinkTypeMetadata g)
        (FDDIFrameControlMetadata g) (EAPOLTypeMetadata g)
        (ProtocolFamilyMetadata g) (Dot11TypeMetadata g) (USBTypeMetadata g)
  | FPPPoECode =>
      mkGlobals (EthernetTypeMetadata g) (IPProtocolMetadata g)
        (SCTPChunkTypeMetadata g) (PPPTypeMetadata g) r (LinkTypeMetadata g)
        (FDDIFrameControlMetadata g) (EAPOLTypeMetadata g)
        (ProtocolFamilyMetadata g) (Dot11TypeMetadata g) (USBTypeMetadata g)
  | FLinkType =>
      mkGlobals (EthernetTypeMetadata g) (IPProtocolMetadata g)
        (SCTPChunkTypeMetadata g) (PPPTypeMetadata g) (PPPoECodeMetadata g) r
        (FDDIFrameControlMetadata g) (EAPOLTypeMetadata g)
        (ProtocolFamilyMetadata g) (Dot11TypeMetadata g) (USBTypeMetadata g)
  | FFDDIFrameControl =>
      mkGlobals (EthernetTypeMetadata g) (IPProtocolMetadata g)
        (SCTPChunkTypeMetadata g) (PPPTypeMetadata g) (PPPoECodeMetadata g)
        (LinkTypeMetadata g) r (EAPOLTypeMetadata g)
        (ProtocolFamilyMetadata g) (Dot11TypeMetadata g) (USBTypeMetadata g)
  | FEAPOLType =>
      mkGlobals (EthernetTypeMetadata g) (IPProtocolMetadata g)
        (SCTPChunkTypeMetadata g) (PPPTypeMetadata g) (PPPoECodeMetadata g)
        (LinkTypeMetadata g) (FDDIFrameControlMetadata g) r
        (ProtocolFamilyMetadata g) (Dot11TypeMetadata g) (USBTypeMetadata g)
  | FProtocolFamily =>
      mkGlobals (EthernetTypeMetadata g) (IPProtocolMetadata g)
        (SCTPChunkTypeMetadata g) (PPPTypeMetadata g) (PPPoECodeMetadata g)
        (LinkTypeMetadata g) (FDDIFrameControlMetadata g)
        (EAPOLTypeMetadata g) r (Dot11TypeMetadata g) (USBTypeMetadata g)
  | FDot11Type =>
      mkGlobals (EthernetTypeMetadata g) (IPProtocolMetadata g)
        (SCTPChunkTypeMetadata g) (PPPTypeMetadata g) (PPPoECodeMetadata g)
        (LinkTypeMetadata g) (FDDIFrameControlMetadata g)
        (EAPOLTypeMetadata g) (ProtocolFamilyMetadata g) r (USBTypeMetadata g)
  end.

(** *** Registration and lookup

    The source has no function for either.  A row is registered by assigning
    the family's variable, as [init] does, and every method reads the row by
    naming the variable.  The variable is a single [EnumMetadata], so the
    code that is registered or looked up selects nothing: [a] is unused here
    exactly as the receiver [a] is unused in the methods. *)
Definition register (f : Family) (a : N) (r : EnumMetadata) (g : Globals)
  : Globals := assign f r g.

Definition lookup (f : Family) (a : N) (g : Globals) : EnumMetadata :=
  metadataOf f g.

(** ** The forwarding methods *)

Definition EthernetType_Decode (a : EthernetType) (data : list byte)
  (p : PacketBuilder) (g : Globals) : PacketBuilder * outcome :=
  Decoder_Decode (DecodeWith (EthernetTypeMetadata g)) data p.
Definition EthernetType_String (a : EthernetType) (g : Globals) : string :=
  Name (EthernetTypeMetadata g).
Definition EthernetType_LayerType (a : EthernetType) (g : Globals)
  : gopacket_LayerType := LayerType (EthernetTypeMetadata g).

Definition IPProtocol_Decode (a : IPProtocol) (data : list byte)
  (p : PacketBuilder) (g : Globals) : PacketBuilder * outcome :=
  Decoder_Decode (DecodeWith (IPProtocolMetadata g)) data p.
Definition IPProtocol_String (a : IPProtocol) (g : Globals) : string :=
  Name (IPProtocolMetadata g).
Definition IPProtocol_LayerType (a : IPProtocol) (g : Globals)
  : gopacket_LayerType := LayerType (IPProtocolMetadata g).

Definition SCTPChunkType_Decode (a : SCTPChunkType) (data : list byte)
  (p : PacketBuilder) (g : Globals) : PacketBuilder * outcome :=
  Decoder_Decode (DecodeWith (SCTPChunkTypeMetadata g)) data p.
Definition SCTPChunkType_String (a : SCTPChunkType) (g : Globals) : string :=
  Name (SCTPChunkTypeMetadata g).

Definition PPPType_Decode (a : PPPType) (data : list byte)
  (p : PacketBuilder) (g : Globals) : PacketBuilder * outcome :=
  Decoder_Decode (DecodeWith (PPPTypeMetadata g)) data p.
Definition PPPType_String (a : PPPType) (g : Globals) : string :=
  Name (PPPTypeMetadata g).

Definition LinkType_Decode (a : LinkType) (data : list byte)
  (p : PacketBuilder) (g : Globals) : PacketBuilder * outcome :=
  Decoder_Decode (DecodeWith (LinkTypeMetadata g)) data p.
Definition LinkType_String (a : LinkType) (g : Globals) : string :=
  Name (LinkTypeMetadata g).

Definition PPPoECode_Decode (a : PPPoECode) (data : list byte)
  (p : PacketBuilder) (g : Globals) : PacketBuilder * outcome :=
  Decoder_Decode (DecodeWith (PPPoECodeMetadata g)) data p.
Definition PPPoECode_String (a : PPPoECode) (g : Globals) : string :=
  Name (PPPoECodeMetadata g).

Definition FDDIFrameControl_Decode (a : FDDIFrameControl) (data : list byte)
  (p : PacketBuilder) (g : Globals) : PacketBuilder * outcome :=
  Decoder_Decode (DecodeWith (FDDIFrameControlMetadata g)) data p.
Definition FDDIFrameControl_String (a : FDDIFrameControl) (g : Globals)
  : string := Name (FDDIFrameControlMetadata g).

Definition EAPOLType_Decode (a : EAPOLType) (data : list byte)
  (p : PacketBuilder) (g : Globals) : PacketBuilder * outcome :=
  Decoder_Decode (DecodeWith (EAPOLTypeMetadata g)) data p.
Definition EAPOLType_String (a : EAPOLType) (g : Globals) : string :=
  Name (EAPOLTypeMetadata g).
Definition EAPOLType_LayerType (a : EAPOLType) (g : Globals)
  : gopacket_LayerType := LayerType (EAPOLTypeMetadata g).

Definition ProtocolFamily_Decode (a : ProtocolFamily) (data : list byte)
  (p : PacketBuilder) (g : Globals) : PacketBuilder * outcome :=
  Decoder_Decode (DecodeWith (ProtocolFamilyMetadata g)) data p.
Definition ProtocolFamily_String (a : ProtocolFamily) (g : Globals) : string :=
  Name (ProtocolFamilyMetadata g).
Definition ProtocolFamily_LayerType (a : ProtocolFamily) (g : Globals)
  : gopacket_LayerType := LayerType (ProtocolFamilyMetadata g).

Definition Dot11Type_Decode (a : Dot11Type) (data : list byte)
  (p : PacketBuilder) (g : Globals) : PacketBuilder * outcome :=
  Decoder_Decode (DecodeWith (Dot11TypeMetadata g)) data p.
Definition Dot11Type_String (a : Dot11Type) (g : Globals) : string :=
  Name (Dot11TypeMetadata g).
Definition Dot11Type_LayerType (a : Dot11Type) (g : Globals)
  : gopacket_LayerType := LayerType (Dot11TypeMetadata g).

(** A code of any family used as a [gopacket.Decoder] or a [fmt.Stringer]:
    the call goes to the method of the code's own type.  All ten types have
    [Decode] and [String]. *)
Definition Decode (f : Family) (a : N) (data : list byte)
  (p : PacketBuilder) (g : Globals) : PacketBuilder * outcome :=
  match f with
  | FEthernetType => EthernetType_Decode a data p g
  | FIPProtocol => IPProtocol_Decode a data p g
  | FSCTPChunkType => SCTPChunkType_Decode a data p g
  | FPPPType => PPPType_Decode a data p g
  | FLinkType => LinkType_Decode a data p g
  | FPPPoECode => PPPoECode_Decode a data p g
  | FFDDIFrameControl => FDDIFrameControl_Decode a data p g
  | FEAPOLType => EAPOLType_Decode a data p g
  | FProtocolFamily => ProtocolFamily_Decode a data p g
  | FDot11Type => Dot11Type_Decode a data p g
  end.

Definition String_ (f : Family) (a : N) (g : Globals) : string :=
  match f with
  | FEthernetType => EthernetType_String a g
  | FIPProtocol => IPProtocol_String a g
  | FSCTPChunkType => SCTPChunkType_String a g
  | FPPPType => PPPType_String a g
  | FLinkType => LinkType_String a g
  | FPPPoECode => PPPoECode_String a g
  | FFDDIFrameControl => FDDIFrameControl_String a g
  | FEAPOLType => EAPOLType_String a g
  | FProtocolFamily => ProtocolFamily_String a g
  | FDot11Type => Dot11Type_String a g
  end.

(** The method set: [Decode] and [String] are methods of all ten types,
    [LayerType] of five only. *)
Definition has_LayerType (f : Family) : bool :=
  match f with
  | FEthernetType | FIPProtocol | FEAPOLType | FProtocolFamily
  | FDot11Type => true
  | FSCTPChunkType | FPPPType | FLinkType | FPPPoECode
  | FFDDIFrameControl => false
  end.

(** The call [a.LayerType()] on a code of family [f]; [None] where the type
    of [a] has no such method. *)
Definition LayerType_ (f : Family) (a : N) (g : Globals)
  : option gopacket_LayerType :=
  match f with
  | FEthernetType => Some (EthernetType_LayerType a g)
  | FIPProtocol => Some (IPProtocol_LayerType a g)
  | FEAPOLType => Some (EAPOLType_LayerType a g)
  | FProtocolFamily => Some (ProtocolFamily_LayerType a g)
  | FDot11Type => Some (Dot11Type_LayerType a g)
  | FSCTPChunkType | FPPPType | FLinkType | FPPPoECode
  | FFDDIFrameControl => None
  end.

(** ** The registry as the specification words it

    These definitions follow the specification, not the source; they are
    the other side of the comparison with the forwarding methods.

    "Dispatch row. {decodingRoutine: Decoder, displayName: text,
    layerClass: an opaque classification token}."  A row always has a
    routine.

    "Registry. One per protocol family. Conceptually
    [array[maxCodeValue+1] of Row]": one row for each code.

    "[register(code, row)]: inserts or replaces the row for [code]",
    "[lookup(code) -> row]: returns the currently registered row",
    "[decode(code, buffer, accumulator)] invokes
    [lookup(code).decodingRoutine(buffer, accumulator)]", "[name(code)]:
    [lookup(code).displayName]", "[layerClass(code)]:
    [lookup(code).layerClass]". *)
Record Row : Type := mkRow {
  decodingRoutine : DecodeFunc;
  displayName : string;
  layerClass : gopacket_LayerType
}.

Definition Registry : Type := N -> Row.

Definition registry_register (code : N) (row : Row) (reg : Registry)
  : Registry :=
  fun c => if N.eqb c code then row else reg c.

Definition registry_lookup (code : N) (reg : Registry) : Row := reg code.

Definition registry_decode (code : N) (buffer : list byte)
  (accumulator : PacketBuilder) (reg : Registry) : PacketBuilder * outcome :=
  decodingRoutine (registry_lookup code reg) buffer accumulator.

Definition registry_name (code : N) (reg : Registry) : string :=
  displayName (registry_lookup code reg).


(** A row of the specification as the [EnumMetadata] that registers it. *)
Definition metadata_of_row (row : Row) : EnumMetadata :=
  {| DecodeWith := Some (decodingRoutine row);
     Name := displayName row;
     LayerType := layerClass row |}.

(** ** Content sniffing *)

(** [decodeIPv4or6]: [data[0]] is read with no check of the length, which on
    an empty slice is an index-out-of-range panic. *)
Definition decodeIPv4or6 (data : list byte) (p : PacketBuilder)
  : PacketBuilder * outcome :=
  match nth_error data 0 with
  | None => (p, Panic (IndexOutOfRange 0 (List.length data)))
  | Some b0 =>
      let version := N.shiftr (Byte.to_N b0) 4 in
      if N.eqb version 4 then decodeIPv4 data p
      else if N.eqb version 6 then decodeIPv6 data p
      else (p, Return (Some ("Invalid IP packet version " ++ fmt_v version)))
  end.

(** ** Bootstrap *)

(** [init]: two assignments. *)
Definition init (g : Globals) : Globals :=
  let g1 :=
    assign FEthernetType
      {| DecodeWith := Some decodeIPv4; Name := "IPv4";
         LayerType := LayerTypeIPv4 |} g in
  assign FIPProtocol
    {| DecodeWith := Some decodeUDP; Name := "UDP";
       LayerType := LayerTypeUDP |} g1.

(** The variables once the package is initialised: zero values, then
    [init]. *)
Definition bootstrap : Globals := init zeroGlobals.

End Model.

(** ** A small instance, for running the definitions

    The packet builder is the list of the names of the layers decoded so far;
    a sample decoder accepts a buffer that is long enough for its header and
    records its layer. *)
Definition sample_decoder (layer : string) (header : nat)
  (data : list byte) (p : list string) : list string * outcome :=
  if Nat.leb header (List.length data)
  then (List.app p [layer], Return None)
  else (p, Return (Some ("Invalid (too small) " ++ layer ++ " header"))).

Definition sampleGopacket : Gopacket :=
  {| PacketBuilder := list string;
     gopacket_LayerType := N;
     LayerTypeZero := 0;
     LayerTypeIPv4 := 20;
     LayerTypeUDP := 45;
     decodeIPv4 := sample_decoder "IPv4" 20;
     decodeIPv6 := sample_decoder "IPv6" 40;
     decodeUDP := sample_decoder "UDP" 8 |}.

(** Twenty bytes that start with [0x45], and forty that start with [0x60]. *)
Definition sample_ipv4_header : list byte := x45 :: repeat x00 19.
Definition sample_ipv6_header : list byte := x60 :: repeat x00 39.

(** A row a user could register for ARP. *)
Definition sample_arp_row : EnumMetadata (G := sampleGopacket) :=
  {| DecodeWith := errorFunc (G := sampleGopacket) "ARP is not decoded";
     Name := "ARP";
     LayerType := (10 : @gopacket_LayerType sampleGopacket) |}.

(** Two rows of the specification's registry, and a registry in which
    every code has a row that fails. *)
Definition sample_ipv4_row : Row (G := sampleGopacket) :=
  mkRow (G := sampleGopacket) (sample_decoder "IPv4" 20) "IPv4" 20.

Definition sample_ipv6_row : Row (G := sampleGopacket) :=
  mkRow (G := sampleGopacket) (sample_decoder "IPv6" 40) "IPv6" 21.

Definition sample_registry : Registry (G := sampleGopacket) :=
  fun _ =>
    mkRow (G := sampleGopacket)
      (fun (_ : list byte) (p : list string) =>
         (p, Return (Some "code not implemented")))
      "" 0.

(** * Properties *)

(** ** Strings *)

Lemma prefix_append (s t : string) : prefix s (s ++ t) = true.
Proof.
  induction s as [|c s IH]; simpl.
  - now destruct t.
  - destruct (ascii_dec c c) as [_|ne]; [exact IH | now elim ne].
Qed.

Lemma prefix_split (s1 s2 : string) :
  prefix s1 s2 = true -> exists t, s2 = s1 ++ t.
Proof.
  revert s2; induction s1 as [|c s1 IH]; intros s2 H.
  - now exists s2.
  - destruct s2 as [|d s2]; simpl in H; [discriminate|].
    destruct (ascii_dec c d) as [->|]; [|discriminate].
    destruct (IH _ H) as [t ->]. now exists t.
Qed.

Lemma contains_prefix (s sub : string) :
  prefix sub s = true -> contains s sub = true.
Proof. intros H; destruct s; cbn [contains]; rewrite H; reflexivity. Qed.

Lemma contains_append (pre sub suf : string) :
  contains (pre ++ sub ++ suf) sub = true.
Proof.
  induction pre as [|c pre IH]; cbn [append contains].
  - apply contains_prefix, prefix_append.
  - rewrite IH. apply orb_true_r.
Qed.

Lemma append_empty_r (s : string) : s ++ "" = s.
Proof. induction s as [|c s IH]; simpl; congruence. Qed.

Lemma contains_suffix (pre sub : string) : contains (pre ++ sub) sub = true.
Proof.
  rewrite <- (append_empty_r sub) at 1. apply contains_append.
Qed.

Lemma contains_split (s sub : string) :
  contains s sub = true -> exists pre suf, s = pre ++ sub ++ suf.
Proof.
  induction s as [|c s IH]; cbn [contains]; intros H.
  - rewrite orb_false_r in H. destruct (prefix_split _ _ H) as [t ->].
    now exists "", t.
  - apply orb_true_iff in H as [H|H].
    + destruct (prefix_split _ _ H) as [t ->]. now exists "", t.
    + destruct (IH H) as (pre & suf & ->). now exists (String c pre), suf.
Qed.

(** The high nibble of a byte is below 16. *)
Lemma high_nibble_bound (b : byte) : N.shiftr (Byte.to_N b) 4 < 16.
Proof.
  rewrite N.shiftr_div_pow2. apply N.Div0.div_lt_upper_bound.
  pose proof (Byte.to_N_bounded b). change (2 ^ 4) with 16. lia.
Qed.

Section Properties.
Context {G : Gopacket}.

(** ** The metadata variables *)

Lemma metadataOf_assign_same (f : Family) (r : EnumMetadata) (g : Globals) :
  metadataOf f (assign f r g) = r.
Proof. destruct f; reflexivity. Qed.

Lemma metadataOf_assign_other (f f' : Family) (r : EnumMetadata)
  (g : Globals) :
  f <> f' -> metadataOf f' (assign f r g) = metadataOf f' g.
Proof. intros ne; destruct f, f'; try reflexivity; now elim ne. Qed.

Lemma USBTypeMetadata_assign (f : Family) (r : EnumMetadata) (g : Globals) :
  USBTypeMetadata (assign f r g) = USBTypeMetadata g.
Proof. destruct f; reflexivity. Qed.

Lemma Decode_metadataOf (f : Family) (a : N) (data : list byte)
  (p : PacketBuilder) (g : Globals) :
  Decode f a data p g = Decoder_Decode (DecodeWith (metadataOf f g)) data p.
Proof. destruct f; reflexivity. Qed.

Lemma String_metadataOf (f : Family) (a : N) (g : Globals) :
  String_ f a g = Name (metadataOf f g).
Proof. destruct f; reflexivity. Qed.

(** [errorFunc msg] returns the error [msg] whatever it is given, and leaves
    the packet builder alone. *)
Lemma errorFunc_Decode (msg : string) (data : list byte) (p : PacketBuilder) :
  Decoder_Decode (errorFunc msg) data p = (p, Return (Some msg)).
Proof. reflexivity. Qed.

(** [init] touches two variables only. *)
Lemma init_metadataOf (f : Family) (g : Globals) :
  metadataOf f (init g) =
  match f with
  | FEthernetType =>
      {| DecodeWith := Some decodeIPv4; Name := "IPv4";
         LayerType := LayerTypeIPv4 |}
  | FIPProtocol =>
      {| DecodeWith := Some decodeUDP; Name := "UDP";
         LayerType := LayerTypeUDP |}
  | _ => metadataOf f g
  end.
Proof. destruct f; reflexivity. Qed.

Lemma bootstrap_unassigned (f : Family) :
  f <> FEthernetType -> f <> FIPProtocol ->
  metadataOf f bootstrap = zeroEnumMetadata.
Proof.
  intros n1 n2. unfold bootstrap. rewrite init_metadataOf.
  destruct f; try reflexivity; [now elim n1 | now elim n2].
Qed.

(** ** Registration and lookup *)

(** C1 (the code departs from the claim): a row stored for a code [c2]
    is the row that lookup returns for EVERY code [c1] of the family, and
    the row that [c1.String()] and [c1.Decode] then use; the row [c1] had
    before is gone.  The variable of a family is one [EnumMetadata], not the
    array indexed by code that its comment describes. *)
Theorem register_replaces_row_of_every_code
  (f : Family) (c1 c2 : N) (r : EnumMetadata) (g : Globals)
  (data : list byte) (p : PacketBuilder) :
  lookup f c1 (register f c2 r g) = r /\
  String_ f c1 (register f c2 r g) = Name r /\
  Decode f c1 data p (register f c2 r g) =
    Decoder_Decode (DecodeWith r) data p.
Proof.
  unfold lookup, register.
  rewrite String_metadataOf, Decode_metadataOf, metadataOf_assign_same.
  repeat split.
Qed.

(** C7: last write wins.  After [register(C, R1)] and [register(C, R2)],
    [lookup(C)] is [R2], from any prior state; [register] is a total
    function of the state, with no failure case. *)
Theorem register_last_write_wins
  (f : Family) (c : N) (r1 r2 : EnumMetadata) (g : Globals) :
  lookup f c (register f c r2 (register f c r1 g)) = r2.
Proof. unfold lookup, register. apply metadataOf_assign_same. Qed.

(** ** Self dispatch *)


(** ** Bootstrap *)

(** C6: after [init], from any earlier state, Ethernet type 0x0800 has the
    row (IPv4 decoder, "IPv4", LayerTypeIPv4); a buffer that the IPv4
    decoder accepts is decoded with success through the code, which reports
    the IPv4 layer type. *)
Theorem init_registers_EthernetTypeIPv4
  (g : Globals) (data : list byte) (p p' : PacketBuilder) :
  decodeIPv4 data p = (p', Return None) ->
  EthernetTypeIPv4 = 0x0800 /\
  lookup FEthernetType EthernetTypeIPv4 (init g) =
    {| DecodeWith := Some decodeIPv4; Name := "IPv4";
       LayerType := LayerTypeIPv4 |} /\
  EthernetType_String EthernetTypeIPv4 (init g) = "IPv4" /\
  EthernetType_LayerType EthernetTypeIPv4 (init g) = LayerTypeIPv4 /\
  EthernetType_Decode EthernetTypeIPv4 data p (init g) = (p', Return None).
Proof.
  intros ok. repeat split. exact ok.
Qed.

(** C2 (the code departs from the claim): after bootstrap no family has a
    sentinel row.  Eight families were never assigned, and [Decode] on any
    of their codes is a nil dereference; every IP protocol code, 200
    included, is decoded by the UDP decoder, and every Ethernet type by the
    IPv4 decoder. *)
Theorem decode_of_unregistered_code_after_init
  (a : N) (data : list byte) (p : PacketBuilder) :
  SCTPChunkType_Decode a data p bootstrap = (p, Panic NilDereference) /\
  PPPType_Decode a data p bootstrap = (p, Panic NilDereference) /\
  LinkType_Decode a data p bootstrap = (p, Panic NilDereference) /\
  PPPoECode_Decode a data p bootstrap = (p, Panic NilDereference) /\
  FDDIFrameControl_Decode a data p bootstrap = (p, Panic NilDereference) /\
  EAPOLType_Decode a data p bootstrap = (p, Panic NilDereference) /\
  ProtocolFamily_Decode a data p bootstrap = (p, Panic NilDereference) /\
  Dot11Type_Decode a data p bootstrap = (p, Panic NilDereference) /\
  IPProtocol_Decode 200 data p bootstrap = decodeUDP data p /\
  IPProtocol_Decode a data p bootstrap = decodeUDP data p /\
  EthernetType_Decode a data p bootstrap = decodeIPv4 data p.
Proof. repeat split. Qed.

(** ** Content sniffing *)

(** C3: on a buffer with a first byte, the version [v] is the high nibble
    of that byte; version 4 goes to the IPv4 decoder,
    version 6 to the IPv6 decoder, and any other version [v] is the error
    "Invalid IP packet version v", whose text contains the decimal digits
    of [v]; the packet builder is then untouched. *)
Theorem decodeIPv4or6_sniffs
  (b0 : byte) (rest : list byte) (p : PacketBuilder) :
  let data := b0 :: rest in
  let v := N.shiftr (Byte.to_N b0) 4 in
  v < 16 /\
  (v = 4 -> decodeIPv4or6 data p = decodeIPv4 data p) /\
  (v = 6 -> decodeIPv4or6 data p = decodeIPv6 data p) /\
  (v <> 4 -> v <> 6 ->
   exists msg,
     decodeIPv4or6 data p = (p, Return (Some msg)) /\
     msg = "Invalid IP packet version " ++ fmt_v v /\
     contains msg (fmt_v v) = true).
Proof.
  intros data v. split; [apply high_nibble_bound|].
  unfold decodeIPv4or6. cbn [nth_error data]. fold v.
  repeat split.
  - intros ->. reflexivity.
  - intros ->. reflexivity.
  - intros n4 n6.
    destruct (N.eqb_spec v 4) as [e|_]; [now elim n4|].
    destruct (N.eqb_spec v 6) as [e|_]; [now elim n6|].
    eexists; split; [reflexivity|]. split; [reflexivity|].
    apply contains_suffix.
Qed.

(** C4 (the code departs from the claim): [decodeIPv4or6] reads [data[0]]
    of an empty buffer, an index-out-of-range panic, not an error value; and
    [Decode] on a link type, whose variable [init] never assigns, is a nil
    dereference for every buffer. *)
Theorem decode_panics
  (a : LinkType) (data : list byte) (p : PacketBuilder) :
  decodeIPv4or6 [] p = (p, Panic (IndexOutOfRange 0 0)) /\
  panicked (snd (decodeIPv4or6 [] p)) = true /\
  is_error_value (snd (decodeIPv4or6 [] p)) = false /\
  LinkType_Decode a data p bootstrap = (p, Panic NilDereference).
Proof. repeat split. Qed.

(** ** Constants *)

(** C8: the named constants have the standards-defined values. *)
Theorem protocol_code_constants :
  EthernetTypeIPv4 = 2048 /\ EthernetTypeIPv4 = 0x0800 /\
  EthernetTypeARP = 2054 /\ EthernetTypeARP = 0x0806 /\
  EthernetTypeIPv6 = 34525 /\ EthernetTypeIPv6 = 0x86DD /\
  IPProtocolTCP = 6 /\
  IPProtocolUDP = 17 /\
  IPProtocolICMPv6 = 58 /\
  LinkTypeEthernet = 1 /\
  LinkTypeRaw = 101 /\
  PPPTypeIPv4 = 33 /\ PPPTypeIPv4 = 0x0021 /\
  Dot11TypeMgmtBeacon = 32 /\ Dot11TypeMgmtBeacon = 0x20.
Proof. repeat split. Qed.

(** C9: [MainType] is the value masked to its low two bits, [d mod 4]; it
    is one of Mgmt (0), Ctrl (1), Data (2), Reserved (3); it is idempotent;
    and the Beacon code 0x20 has main type Mgmt. *)
Theorem MainType_category (d : Dot11Type) :
  MainType d = d mod 4 /\
  (MainType d = Dot11TypeMgmt \/ MainType d = Dot11TypeCtrl \/
   MainType d = Dot11TypeData \/ MainType d = Dot11TypeReserved) /\
  MainType (MainType d) = MainType d /\
  MainType Dot11TypeMgmtBeacon = Dot11TypeMgmt /\
  Dot11TypeMgmt = 0 /\ Dot11TypeCtrl = 1 /\
  Dot11TypeData = 2 /\ Dot11TypeReserved = 3.
Proof.
  assert (E : MainType d = d mod 4).
  { unfold MainType, dot11TypeMask. change 0x03 with (N.ones 2).
    now rewrite N.land_ones. }
  assert (B : d mod 4 < 4) by (apply N.mod_lt; discriminate).
  split; [exact E|]. split.
  - rewrite E. unfold Dot11TypeMgmt, Dot11TypeCtrl, Dot11TypeData,
      Dot11TypeReserved. lia.
  - split; [|repeat split].
    unfold MainType at 1. rewrite E. unfold dot11TypeMask.
    change 0x03 with (N.ones 2). rewrite N.land_ones.
    change (2 ^ 2) with 4. apply N.Div0.mod_mod.
Qed.

(** C10: [LinkTypeC_HDLC] and [LinkTypeLTalk] are the same code, 104; so
    a row registered for one is registered for the other, and lookup,
    [String] and [Decode] cannot tell them apart in any state. *)
Theorem LinkTypeC_HDLC_is_LinkTypeLTalk
  (g : Globals) (r : EnumMetadata) (data : list byte) (p : PacketBuilder) :
  LinkTypeC_HDLC = LinkTypeLTalk /\
  LinkTypeC_HDLC = 104 /\ LinkTypeLTalk = 104 /\
  register FLinkType LinkTypeC_HDLC r g = register FLinkType LinkTypeLTalk r g /\
  lookup FLinkType LinkTypeC_HDLC g = lookup FLinkType LinkTypeLTalk g /\
  LinkType_String LinkTypeC_HDLC g = LinkType_String LinkTypeLTalk g /\
  LinkType_Decode LinkTypeC_HDLC data p g =
    LinkType_Decode LinkTypeLTalk data p g.
Proof. repeat split. Qed.

End Properties.

(** * The definitions run on the sample instance *)

(** C3 at five buffers: first byte 0x45, first byte 0x60, and the first
    bytes 0x90, 0x00 and 0xff, whose errors mention 9, 0 and 15. *)
Lemma decodeIPv4or6_sniffs_witness :
  decodeIPv4or6 (G := sampleGopacket) sample_ipv4_header [] =
    (["IPv4"], Return None) /\
  decodeIPv4or6 (G := sampleGopacket) sample_ipv6_header [] =
    (["IPv6"], Return None) /\
  (exists msg,
     decodeIPv4or6 (G := sampleGopacket) [x90] [] = ([], Return (Some msg)) /\
     msg = "Invalid IP packet version 9" /\
     contains msg "9" = true) /\
  (exists msg,
     decodeIPv4or6 (G := sampleGopacket) [x00; x01] [] =
       ([], Return (Some msg)) /\
     msg = "Invalid IP packet version 0" /\
     contains msg "0" = true) /\
  (exists msg,
     decodeIPv4or6 (G := sampleGopacket) [xff] [] = ([], Return (Some msg)) /\
     msg = "Invalid IP packet version 15" /\
     contains msg "15" = true).
Proof.
  split; [|split; [|split; [|split]]].
  - destruct (decodeIPv4or6_sniffs (G := sampleGopacket)
                x45 (repeat x00 19) []) as (_ & H & _ & _).
    apply H. reflexivity.
  - destruct (decodeIPv4or6_sniffs (G := sampleGopacket)
                x60 (repeat x00 39) []) as (_ & _ & H & _).
    apply H. reflexivity.
  - destruct (decodeIPv4or6_sniffs (G := sampleGopacket)
                x90 [] []) as (_ & _ & _ & H).
    apply H; vm_compute; discriminate.
  - destruct (decodeIPv4or6_sniffs (G := sampleGopacket)
                x00 [x01] []) as (_ & _ & _ & H).
    apply H; vm_compute; discriminate.
  - destruct (decodeIPv4or6_sniffs (G := sampleGopacket)
                xff [] []) as (_ & _ & _ & H).
    apply H; vm_compute; discriminate.
Defined.


(** The forwarding methods beside the specification's registry, after the
    same two registrations: the IPv4 row for 0x0800, then the IPv6 row for
    0x86DD.  The code registered last agrees with the registry; for the
    code 0x0800 the registry still names "IPv4" and the method names
    "IPv6". *)
Example self_dispatch_after_two_registrations :
  let g := register (G := sampleGopacket) FEthernetType EthernetTypeIPv6
             (metadata_of_row sample_ipv6_row)
             (register (G := sampleGopacket) FEthernetType EthernetTypeIPv4
                (metadata_of_row sample_ipv4_row) bootstrap) in
  let reg := registry_register (G := sampleGopacket) EthernetTypeIPv6
               sample_ipv6_row
               (registry_register (G := sampleGopacket) EthernetTypeIPv4
                  sample_ipv4_row sample_registry) in
  EthernetType_String (G := sampleGopacket) EthernetTypeIPv6 g = "IPv6" /\
  registry_name (G := sampleGopacket) EthernetTypeIPv6 reg = "IPv6" /\
  EthernetType_Decode (G := sampleGopacket) EthernetTypeIPv6
    sample_ipv6_header [] g = (["IPv6"], Return None) /\
  registry_decode (G := sampleGopacket) EthernetTypeIPv6
    sample_ipv6_header [] reg = (["IPv6"], Return None) /\
  registry_name (G := sampleGopacket) EthernetTypeIPv4 reg = "IPv4" /\
  EthernetType_String (G := sampleGopacket) EthernetTypeIPv4 g = "IPv6".
Proof. repeat split. Qed.

(** C6 on the sample instance: twenty bytes starting with 0x45. *)
Lemma init_registers_EthernetTypeIPv4_witness :
  decodeIPv4 (Gopacket := sampleGopacket) sample_ipv4_header [] =
    (["IPv4"], Return None) /\
  EthernetType_String (G := sampleGopacket) 0x0800 bootstrap = "IPv4" /\
  EthernetType_LayerType (G := sampleGopacket) 0x0800 bootstrap =
    LayerTypeIPv4 /\
  EthernetType_Decode (G := sampleGopacket) 0x0800 sample_ipv4_header []
    bootstrap = (["IPv4"], Return None).
Proof.
  split; [reflexivity|].
  destruct (init_registers_EthernetTypeIPv4 (G := sampleGopacket)
              zeroGlobals sample_ipv4_header [] ["IPv4"] eq_refl)
    as (_ & _ & Hs & Hl & Hd).
  exact (conj Hs (conj Hl Hd)).
Defined.

(** Registering a row for ARP (0x0806) after bootstrap: the IPv4 code
    0x0800 is then named "ARP" and decoded by the ARP row's routine. *)
Example register_ARP_changes_IPv4 :
  let g := register (G := sampleGopacket) FEthernetType EthernetTypeARP
             sample_arp_row bootstrap in
  EthernetType_String (G := sampleGopacket) EthernetTypeIPv4 bootstrap =
    "IPv4" /\
  EthernetType_String (G := sampleGopacket) EthernetTypeIPv4 g = "ARP" /\
  EthernetType_Decode (G := sampleGopacket) EthernetTypeIPv4
    sample_ipv4_header [] bootstrap = (["IPv4"], Return None) /\
  EthernetType_Decode (G := sampleGopacket) EthernetTypeIPv4
    sample_ipv4_header [] g = ([], Return (Some "ARP is not decoded")).
Proof. repeat split. Qed.

(** IP protocol 200 after bootstrap: eight bytes are decoded as UDP, with
    success; a shorter buffer gives the UDP decoder's error, in which 200
    does not occur. *)
Example IPProtocol_200_is_decoded_as_UDP :
  IPProtocol_Decode (G := sampleGopacket) 200 (repeat x00 8) [] bootstrap =
    (["UDP"], Return None) /\
  IPProtocol_String (G := sampleGopacket) 200 bootstrap = "UDP" /\
  (exists msg,
     IPProtocol_Decode (G := sampleGopacket) 200 [] [] bootstrap =
       ([], Return (Some msg)) /\
     contains msg (fmt_v 200) = false).
Proof.
  split; [reflexivity|]. split; [reflexivity|].
  eexists; split; reflexivity.
Qed.

(** The link type Ethernet after bootstrap: a nil dereference, and an empty
    name. *)
Example LinkTypeEthernet_after_bootstrap :
  LinkType_Decode (G := sampleGopacket) LinkTypeEthernet sample_ipv4_header []
    bootstrap = ([], Panic NilDereference) /\
  LinkType_String (G := sampleGopacket) LinkTypeEthernet bootstrap = "".
Proof. split; reflexivity. Qed.

(** The empty buffer given to the version dispatcher. *)
Example decodeIPv4or6_empty :
  decodeIPv4or6 (G := sampleGopacket) [] [] =
    ([], Panic (IndexOutOfRange 0 0)).
Proof. reflexivity. Qed.

(** [errorFunc], which [init] never calls: the decoder it builds returns
    the message it was given, here one that names a code. *)
Example errorFunc_sentinel :
  Decoder_Decode (G := sampleGopacket)
    (errorFunc ("Unable to decode IP protocol " ++ fmt_v 200)) [] [] =
    ([], Return (Some "Unable to decode IP protocol 200")).
Proof. reflexivity. Qed.

(** * Further properties of the metadata variables, the dispatcher and the
      constant tables *)

Lemma distinct_NoDup (l : list N) : distinct l = true <-> NoDup l.
Proof.
  induction l as [|x t IH]; simpl.
  - split; [constructor | reflexivity].
  - rewrite andb_true_iff, negb_true_iff, IH. split.
    + intros [nx nd]. constructor; [|exact nd].
      intros i. assert (E : existsb (N.eqb x) t = true).
      { apply existsb_exists. exists x. split; [exact i | apply N.eqb_refl]. }
      congruence.
    + intros nd. inversion nd as [|? ? nx nd']; subst. split; [|exact nd'].
      destruct (existsb (N.eqb x) t) eqn:E; [|reflexivity].
      apply existsb_exists in E as (y & i & e).
      apply N.eqb_eq in e; subst y. now elim nx.
Qed.

Lemma fmt_v_inj (n m : N) : fmt_v n = fmt_v m -> n = m.
Proof.
  unfold fmt_v. intros H.
  assert (nonnil : forall k, N.to_uint k <> Decimal.Nil).
  { intros [|q]; [discriminate | apply DecimalPos.Unsigned.to_uint_nonnil]. }
  apply DecimalN.Unsigned.to_uint_inj.
  pose proof (NilZero.usu _ (nonnil n)) as An.
  pose proof (NilZero.usu _ (nonnil m)) as Am.
  rewrite H in An. congruence.
Qed.

Lemma land_3_mod_4 (d : N) : N.land d 0x03 = d mod 4.
Proof. change 0x03 with (N.ones 2). now rewrite N.land_ones. Qed.

(** Two low bits and a value shifted left by two share no bit. *)
Lemma land_low2_shiftl (t s : N) : t < 4 -> N.land t (N.shiftl s 2) = 0.
Proof.
  intros lt. apply N.bits_inj_0. intros n. rewrite N.land_spec.
  destruct (N.lt_ge_cases n 2) as [l|ge].
  - rewrite (N.shiftl_spec_low s 2 n l). apply andb_false_r.
  - replace (N.testbit t n) with false; [reflexivity|].
    symmetry. destruct (N.eq_dec t 0) as [->|nz]; [apply N.bits_0|].
    apply N.bits_above_log2. apply N.lt_le_trans with 2; [|exact ge].
    apply N.log2_lt_pow2; [lia | exact lt].
Qed.

Lemma lor_low2_shiftl (t s : N) :
  t < 4 -> N.lor t (N.shiftl s 2) = t + 4 * s.
Proof.
  intros lt. pose proof (land_low2_shiftl t s lt) as Z.
  rewrite <- (N.lxor_lor _ _ Z), <- (N.add_nocarry_lxor _ _ Z),
    N.shiftl_mul_pow2.
  change (2 ^ 2) with 4. lia.
Qed.

Section MoreProperties.
Context {G : Gopacket}.

(** ** Registration across families *)

(** X1: families do not interfere.  Storing a row in the variable of one
    family changes nothing of the row of any code of another family
    (its decoding routine, name and layer type), of what [String] and
    [LayerType] return for it, or of [USBTypeMetadata]. *)
Theorem register_frames_other_families
  (f f' : Family) (c a : N) (r : EnumMetadata) (g : Globals) :
  f <> f' ->
  lookup f' a (register f c r g) = lookup f' a g /\
  DecodeWith (lookup f' a (register f c r g)) = DecodeWith (lookup f' a g) /\
  String_ f' a (register f c r g) = String_ f' a g /\
  LayerType_ f' a (register f c r g) = LayerType_ f' a g /\
  USBTypeMetadata (register f c r g) = USBTypeMetadata g.
Proof.
  intros ne. unfold lookup, register.
  assert (L : forall h, LayerType_ f' a h =
            if has_LayerType f' then Some (LayerType (metadataOf f' h))
            else None) by (intros h; destruct f'; reflexivity).
  rewrite !L, !String_metadataOf,
    (metadataOf_assign_other f f' r g ne), USBTypeMetadata_assign.
  repeat split.
Qed.

(** X2: registrations in two different families commute: either order
    leaves the same state. *)
Theorem register_commutes_across_families
  (f f' : Family) (c c' : N) (r r' : EnumMetadata) (g : Globals) :
  f <> f' ->
  register f c r (register f' c' r' g) =
  register f' c' r' (register f c r g).
Proof.
  intros ne. unfold register.
  destruct f, f'; try reflexivity; now elim ne.
Qed.

(** X3: within a family a registration erases the one before it, whatever
    the two codes: the state is the one the second registration alone
    gives. *)
Theorem register_absorbs_earlier_registration
  (f : Family) (c1 c2 : N) (r1 r2 : EnumMetadata) (g : Globals) :
  register f c2 r2 (register f c1 r1 g) = register f c2 r2 g.
Proof. unfold register. destruct f; reflexivity. Qed.

(** X4: storing back the row that lookup returns leaves the whole state as
    it was. *)
Theorem register_looked_up_row_is_identity
  (f : Family) (c c' : N) (g : Globals) :
  register f c (lookup f c' g) g = g.
Proof. unfold register, lookup. destruct g, f; reflexivity. Qed.

(** X5: a row built with [errorFunc msg] makes [Decode] of every code of
    its family return the error [msg], for every buffer, the empty one
    included; the call does not panic and leaves the packet builder as it
    was.  The name of every code of the family is the row's name. *)
Theorem errorFunc_row_fails_every_decode
  (f : Family) (c a : N) (msg name : string) (lt : gopacket_LayerType)
  (g : Globals) (data : list byte) (p : PacketBuilder) :
  let g' := register f c
              {| DecodeWith := errorFunc msg; Name := name;
                 LayerType := lt |} g in
  Decode f a data p g' = (p, Return (Some msg)) /\
  Decode f a [] p g' = (p, Return (Some msg)) /\
  String_ f a g' = name.
Proof.
  intros g'. unfold g', register.
  rewrite !Decode_metadataOf, String_metadataOf, metadataOf_assign_same.
  repeat split.
Qed.

(** ** The state after bootstrap *)

(** X6: names and layer types once the package is initialised.  Every
    Ethernet type is named "IPv4" and every IP protocol "UDP"; every code
    of the eight other families has the empty name; the layer type is
    IPv4 for Ethernet types, UDP for IP protocols and the zero value for
    EAPOL types, protocol families and 802.11 types; [USBTypeMetadata] is
    the zero row. *)
Theorem names_and_layer_types_after_bootstrap (f : Family) (a : N) :
  String_ f a bootstrap =
    match f with
    | FEthernetType => "IPv4"
    | FIPProtocol => "UDP"
    | _ => ""
    end /\
  EthernetType_LayerType a bootstrap = LayerTypeIPv4 /\
  IPProtocol_LayerType a bootstrap = LayerTypeUDP /\
  EAPOLType_LayerType a bootstrap = LayerTypeZero /\
  ProtocolFamily_LayerType a bootstrap = LayerTypeZero /\
  Dot11Type_LayerType a bootstrap = LayerTypeZero /\
  USBTypeMetadata bootstrap = zeroEnumMetadata.
Proof. split; [destruct f; reflexivity | repeat split]. Qed.

(** ** The version dispatcher *)

(** X7: when the IPv4 and IPv6 decoders never panic, [decodeIPv4or6]
    panics on the empty buffer and on no other. *)
Theorem decodeIPv4or6_panics_only_on_empty
  (data : list byte) (p : PacketBuilder) :
  (forall d q, panicked (snd (decodeIPv4 d q)) = false) ->
  (forall d q, panicked (snd (decodeIPv6 d q)) = false) ->
  panicked (snd (decodeIPv4or6 data p)) = true <-> data = [].
Proof.
  intros s4 s6. unfold decodeIPv4or6. destruct data as [|b0 rest].
  - simpl. split; reflexivity.
  - cbn [nth_error].
    destruct (N.shiftr (to_N b0) 4 =? 4)%N;
      [rewrite s4; split; discriminate|].
    destruct (N.shiftr (to_N b0) 4 =? 6)%N;
      [rewrite s6; split; discriminate|].
    simpl. split; discriminate.
Qed.

(** X8: the error of a rejected version tells the version, and nothing
    else of the buffer.  For two buffers whose versions are neither 4 nor
    6, the outcomes are equal exactly when the versions are: the low nibble
    of the first byte and the bytes after it play no part. *)
Theorem decodeIPv4or6_error_determines_version
  (b1 b2 : byte) (rest1 rest2 : list byte) (p1 p2 : PacketBuilder) :
  let v1 := N.shiftr (Byte.to_N b1) 4 in
  let v2 := N.shiftr (Byte.to_N b2) 4 in
  v1 <> 4 -> v1 <> 6 -> v2 <> 4 -> v2 <> 6 ->
  snd (decodeIPv4or6 (b1 :: rest1) p1) = snd (decodeIPv4or6 (b2 :: rest2) p2)
  <-> v1 = v2.
Proof.
  intros v1 v2 a4 a6 b4 b6. unfold decodeIPv4or6. cbn [nth_error].
  fold v1 v2.
  destruct (N.eqb_spec v1 4) as [e|_]; [now elim a4|].
  destruct (N.eqb_spec v1 6) as [e|_]; [now elim a6|].
  destruct (N.eqb_spec v2 4) as [e|_]; [now elim b4|].
  destruct (N.eqb_spec v2 6) as [e|_]; [now elim b6|].
  cbn [snd]. split.
  - intros H. injection H as H.
    apply fmt_v_inj. exact H.
  - intros ->. reflexivity.
Qed.

(** X12: [decodeIPv4or6] returns success only through a sub-decoder.  If
    the call returns a nil error, the buffer has a first byte whose version
    is 4 or 6, and the result, packet builder included, is the one of the
    IPv4 or of the IPv6 decoder on the whole buffer. *)
Theorem decodeIPv4or6_success_is_a_sub_decoder_success
  (data : list byte) (p p' : PacketBuilder) :
  decodeIPv4or6 data p = (p', Return None) ->
  exists b0 rest,
    data = b0 :: rest /\
    ((N.shiftr (Byte.to_N b0) 4 = 4 /\ decodeIPv4 data p = (p', Return None))
     \/
     (N.shiftr (Byte.to_N b0) 4 = 6 /\
      decodeIPv6 data p = (p', Return None))).
Proof.
  unfold decodeIPv4or6. destruct data as [|b0 rest]; [discriminate|].
  cbn [nth_error]. intros H. exists b0, rest. split; [reflexivity|].
  destruct (N.eqb_spec (N.shiftr (to_N b0) 4) 4) as [e4|_];
    [left; split; assumption|].
  destruct (N.eqb_spec (N.shiftr (to_N b0) 4) 6) as [e6|_];
    [right; split; assumption|].
  discriminate.
Qed.

End MoreProperties.

(** ** 802.11 types and the constant tables *)

(** X9: every named type/subtype conglomeration has the main type of the
    group it is listed under (Management, Control, Data), none has the
    main type Reserved, and each fits six bits. *)
Theorem Dot11_subtypes_have_their_main_type :
  Forall (fun d => MainType d = Dot11TypeMgmt) Dot11TypeMgmt_subtypes /\
  Forall (fun d => MainType d = Dot11TypeCtrl) Dot11TypeCtrl_subtypes /\
  Forall (fun d => MainType d = Dot11TypeData) Dot11TypeData_subtypes /\
  Forall (fun d => MainType d <> Dot11TypeReserved /\ d < 0x40)
    (Dot11TypeMgmt_subtypes ++ Dot11TypeCtrl_subtypes ++
     Dot11TypeData_subtypes)%list.
Proof.
  repeat split; repeat constructor; discriminate.
Qed.

(** X10: [MainType] strips the subtype.  A code made of a main type
    [t < 4] and any subtype [s] in the bits above has main type [t]; and
    [MainType] leaves a code unchanged exactly when the code is one of the
    four main types. *)
Theorem MainType_strips_subtype (t s d : N) :
  t < 4 ->
  MainType (t + 4 * s) = t /\
  MainType (N.lor t (N.shiftl s 2)) = t /\
  (MainType d = d <-> d < 4).
Proof.
  intros lt. unfold MainType, dot11TypeMask. rewrite !land_3_mod_4.
  assert (E : (t + 4 * s) mod 4 = t).
  { rewrite N.mul_comm, N.Div0.mod_add. now apply N.mod_small. }
  split; [exact E|]. split.
  - rewrite (lor_low2_shiftl t s lt). exact E.
  - split; intros H.
    + rewrite <- H. apply N.mod_lt. discriminate.
    + now apply N.mod_small.
Qed.

(** X11: the named constants of a block are pairwise different values, in
    every block but two.  Among the link types the value 104 is named
    twice ([LinkTypeC_HDLC], [LinkTypeLTalk]) and it is the only one; among
    the 802.11 types [Dot11TypeMgmtAssociationReq] has the value of the
    main type [Dot11TypeMgmt], and the conglomerations are otherwise
    different from each other. *)
Theorem named_constants_are_distinct :
  NoDup EthernetType_constants /\
  NoDup IPProtocol_constants /\
  NoDup PPPoECode_constants /\
  NoDup PPPType_constants /\
  NoDup SCTPChunkType_constants /\
  NoDup EAPOLType_constants /\
  NoDup ProtocolFamily_constants /\
  NoDup (Dot11TypeMgmt_subtypes ++ Dot11TypeCtrl_subtypes ++
         Dot11TypeData_subtypes) /\
  ~ NoDup LinkType_constants /\
  NoDup (List.remove N.eq_dec LinkTypeLTalk LinkType_constants) /\
  List.length (List.remove N.eq_dec LinkTypeLTalk LinkType_constants) = 26%nat.
Proof.
  repeat split; try (apply distinct_NoDup; vm_compute; reflexivity).
  intros nd. apply distinct_NoDup in nd. vm_compute in nd. discriminate.
Qed.

(** ** The further properties on the sample instance *)

(** X1 at a concrete state: the ARP row stored for Ethernet types leaves
    the IP protocols named "UDP". *)
Lemma register_frames_other_families_witness :
  FEthernetType <> FIPProtocol /\
  IPProtocol_String (G := sampleGopacket) IPProtocolUDP
    (register (G := sampleGopacket) FEthernetType EthernetTypeARP
       sample_arp_row bootstrap) = "UDP".
Proof.
  split; [discriminate|].
  destruct (register_frames_other_families (G := sampleGopacket)
              FEthernetType FIPProtocol EthernetTypeARP IPProtocolUDP
              sample_arp_row bootstrap)
    as (_ & _ & H & _); [discriminate|].
  exact H.
Defined.

(** X2 at a concrete state. *)
Lemma register_commutes_across_families_witness :
  FEthernetType <> FLinkType /\
  register (G := sampleGopacket) FEthernetType EthernetTypeARP sample_arp_row
    (register (G := sampleGopacket) FLinkType LinkTypeEthernet
       sample_arp_row bootstrap) =
  register (G := sampleGopacket) FLinkType LinkTypeEthernet sample_arp_row
    (register (G := sampleGopacket) FEthernetType EthernetTypeARP
       sample_arp_row bootstrap).
Proof.
  split; [discriminate|].
  apply (register_commutes_across_families (G := sampleGopacket)).
  discriminate.
Defined.

(** The sample decoders return on every input. *)
Lemma sample_decoder_returns (layer : string) (header : nat)
  (d : list byte) (q : list string) :
  panicked (snd (sample_decoder layer header d q)) = false.
Proof.
  unfold sample_decoder. destruct (Nat.leb header (List.length d));
    reflexivity.
Qed.

(** X7 on the sample instance: a one-byte buffer does not panic. *)
Lemma decodeIPv4or6_panics_only_on_empty_witness :
  panicked (snd (decodeIPv4or6 (G := sampleGopacket) [] [])) = true /\
  panicked (snd (decodeIPv4or6 (G := sampleGopacket) [x45] [])) = false.
Proof.
  split.
  - apply (decodeIPv4or6_panics_only_on_empty (G := sampleGopacket) [] []);
      [intros; apply sample_decoder_returns
      |intros; apply sample_decoder_returns
      |reflexivity].
  - destruct (panicked (snd (decodeIPv4or6 (G := sampleGopacket) [x45] [])))
      eqn:E; [|reflexivity].
    apply (decodeIPv4or6_panics_only_on_empty (G := sampleGopacket)
             [x45] []) in E;
      [discriminate
      |intros; apply sample_decoder_returns
      |intros; apply sample_decoder_returns].
Defined.

(** X8 at the first bytes 0x90 and 0x9f, both of version 9, with different
    tails. *)
Lemma decodeIPv4or6_error_determines_version_witness :
  snd (decodeIPv4or6 (G := sampleGopacket) [x90] []) =
  snd (decodeIPv4or6 (G := sampleGopacket) [x9f; x01; x02] ["Ethernet"]).
Proof.
  apply (decodeIPv4or6_error_determines_version (G := sampleGopacket)
           x90 x9f [] [x01; x02] [] ["Ethernet"]);
    vm_compute; try discriminate; reflexivity.
Defined.

(** X10 at main type Data (2) and subtype 8: the code 0x22,
    [Dot11TypeDataQOSData]. *)
Lemma MainType_strips_subtype_witness :
  2 < 4 /\ 2 + 4 * 8 = Dot11TypeDataQOSData /\
  MainType Dot11TypeDataQOSData = Dot11TypeData.
Proof.
  split; [reflexivity|]. split; [reflexivity|].
  destruct (MainType_strips_subtype 2 8 0) as (H & _); [reflexivity|].
  exact H.
Defined.

(** X12 on the sample instance: the success on twenty bytes starting with
    0x45 is the IPv4 decoder's. *)
Lemma decodeIPv4or6_success_is_a_sub_decoder_success_witness :
  exists b0 rest,
    sample_ipv4_header = b0 :: rest /\
    ((N.shiftr (Byte.to_N b0) 4 = 4 /\
      decodeIPv4 (Gopacket := sampleGopacket) sample_ipv4_header [] =
        (["IPv4"], Return None)) \/
     (N.shiftr (Byte.to_N b0) 4 = 6 /\
      decodeIPv6 (Gopacket := sampleGopacket) sample_ipv4_header [] =
        (["IPv4"], Return None))).
Proof.
  apply (decodeIPv4or6_success_is_a_sub_decoder_success
           (G := sampleGopacket) sample_ipv4_header [] ["IPv4"]).
  reflexivity.
Defined.
